(** * RetinaNet rotated-NMS TensorRT plugin (csrc/plugins/NMSRotatePlugin.h)

    A shallow embedding of the class [retinanet::NMSRotatePlugin] and of the
    parts of the TensorRT interface it touches, followed by the properties of
    the plugin's configuration, serialization, negotiation and workspace
    caching code.

    Conventions of the embedding:
    - the target ABI is the one CUDA runs on: little-endian, 4-byte [float]
      and [int], 8-byte [size_t];
    - machine integers are [Z] with the wrap-around or the overflow written
      out; a [float] is its IEEE-754 binary32 bit pattern;
    - the [assert]s of the header are live (no NDEBUG): a failed assertion is
      the outcome [AssertionFailed], an out-of-bounds read or a signed
      overflow is the outcome [Undefined];
    - the [mutable] member [size] makes [getWorkspaceSize] a state
      transformer although it is declared [const]. *)

From Stdlib Require Import ZArith List Bool Lia.
From coqutil Require Import Byte Word.LittleEndianList.
Import ListNotations.
Local Open Scope Z_scope.

(** ** Machine integers *)

Definition INT_MIN : Z := - 2 ^ 31.
Definition INT_MAX : Z := 2 ^ 31 - 1.
Definition SIZE_MAX : Z := 2 ^ 64 - 1.

Definition in_int (z : Z) : Prop := INT_MIN <= z <= INT_MAX.
Definition in_size_t (z : Z) : Prop := 0 <= z <= SIZE_MAX.

Definition in_intb (z : Z) : bool := (INT_MIN <=? z) && (z <=? INT_MAX).

(** Two's complement reading of a 32-bit pattern. *)
Definition int_of_bits (bits : Z) : Z :=
  if bits <? 2 ^ 31 then bits else bits - 2 ^ 32.

(** Conversion of an integer value to [int] and to [size_t]. *)
Definition to_int (z : Z) : Z := int_of_bits (z mod 2 ^ 32).
Definition to_size_t (z : Z) : Z := z mod 2 ^ 64.

(** ** Outcomes of code with assertions *)

Inductive outcome (A : Type) : Type :=
| Ok (a : A)
| AssertionFailed
| Undefined.

Arguments Ok {A} a.
Arguments AssertionFailed {A}.
Arguments Undefined {A}.

Definition bind {A B : Type} (c : outcome A) (k : A -> outcome B) : outcome B :=
  match c with
  | Ok a => k a
  | AssertionFailed => AssertionFailed
  | Undefined => Undefined
  end.

Notation "x <- c ;; k" := (bind c (fun x => k))
  (at level 61, c at next level, right associativity).
Notation "c ;;; k" := (bind c (fun _ => k))
  (at level 61, right associativity).

Definition assert (b : bool) : outcome unit :=
  if b then Ok tt else AssertionFailed.

(** [a[i]] on a C array whose extent is the list. *)
Definition index {A : Type} (a : list A) (i : nat) : outcome A :=
  match nth_error a i with
  | Some x => Ok x
  | None => Undefined
  end.

(** [int * int]: signed overflow is undefined. *)
Definition int_mul (a b : Z) : outcome Z :=
  if in_intb (a * b) then Ok (a * b) else Undefined.

(** ** Single-precision floats as bit patterns *)

Definition float : Type := Z.

Definition float_sign (f : float) : bool := Z.testbit f 31.
Definition float_exponent (f : float) : Z := Z.land (Z.shiftr f 23) 255.
Definition float_mantissa (f : float) : Z := Z.land f (2 ^ 23 - 1).

Definition float_is_nan (f : float) : bool :=
  (float_exponent f =? 255) && negb (float_mantissa f =? 0).

(** Position of a non-NaN float on the number line: sign and magnitude,
    with both zeros at 0. *)
Definition float_key (f : float) : Z :=
  let magnitude := Z.land f (2 ^ 31 - 1) in
  if float_sign f then - magnitude else magnitude.

Definition float_lt (a b : float) : bool :=
  negb (float_is_nan a) && negb (float_is_nan b) && (float_key a <? float_key b).

Definition float_le (a b : float) : bool :=
  negb (float_is_nan a) && negb (float_is_nan b) && (float_key a <=? float_key b).

Definition float_gt (a b : float) : bool := float_lt b a.

Definition float_zero : float := 0.

(** ** The TensorRT types the plugin uses (NvInfer.h) *)

Inductive DataType : Type := kFLOAT | kHALF | kINT8 | kINT32 | kBOOL.

Inductive PluginFormat : Type :=
  kLINEAR | kCHW2 | kHWC8 | kCHW4 | kCHW16 | kCHW32.

Definition DataType_eqb (a b : DataType) : bool :=
  match a, b with
  | kFLOAT, kFLOAT | kHALF, kHALF | kINT8, kINT8
  | kINT32, kINT32 | kBOOL, kBOOL => true
  | _, _ => false
  end.

Definition PluginFormat_eqb (a b : PluginFormat) : bool :=
  match a, b with
  | kLINEAR, kLINEAR | kCHW2, kCHW2 | kHWC8, kHWC8
  | kCHW4, kCHW4 | kCHW16, kCHW16 | kCHW32, kCHW32 => true
  | _, _ => false
  end.

Record Dims : Type := mkDims { nbDims : Z; d : list Z }.

Definition Dims3 (d0 d1 d2 : Z) : Dims := mkDims 3 [d0; d1; d2].

(** [dims.d[0]]: [d] is a fixed array inside [Dims], so the read is always
    in bounds. *)
Definition d0 (dims : Dims) : Z := nth 0 (d dims) 0.

(** Number of elements a [Dims] describes. *)
Definition volume (dims : Dims) : Z :=
  fold_right Z.mul 1 (firstn (Z.to_nat (nbDims dims)) (d dims)).

(** ** Object representations *)

Inductive ctype : Type := T_float | T_int | T_size_t.

Definition sizeof (t : ctype) : nat :=
  match t with
  | T_float => 4
  | T_int => 4
  | T_size_t => 8
  end%nat.

(** The value a stored bit pattern denotes at type [t]. *)
Definition value_of_bits (t : ctype) (bits : Z) : Z :=
  match t with
  | T_int => int_of_bits bits
  | T_float | T_size_t => bits
  end.

(** The values a variable of type [t] can hold. *)
Definition representable (t : ctype) (v : Z) : Prop :=
  match t with
  | T_float => 0 <= v < 2 ^ 32
  | T_int => in_int v
  | T_size_t => in_size_t v
  end.

(** [write<T>(buffer, val)]: the cursor is what has been written so far. *)
Definition write (t : ctype) (buffer : list byte) (val : Z) : list byte :=
  buffer ++ le_split (sizeof t) val.

(** [read<T>(buffer, val)]: the cursor is the memory from [buffer] on;
    reading past its end is undefined. *)
Definition read (t : ctype) (buffer : list byte) : outcome (Z * list byte) :=
  if (length buffer <? sizeof t)%nat then Undefined
  else Ok (value_of_bits t (le_combine (firstn (sizeof t) buffer)),
           skipn (sizeof t) buffer).

(** ** The plugin *)

Record NMSRotatePlugin : Type := mkNMSRotatePlugin {
  _nms_thresh : float;
  _detections_per_im : Z;   (* int *)
  _count : Z;               (* size_t *)
  size : Z                  (* mutable int, -1 when unset *)
}.

Definition set_count (this : NMSRotatePlugin) (c : Z) : NMSRotatePlugin :=
  mkNMSRotatePlugin (_nms_thresh this) (_detections_per_im this) c (size this).

Definition set_size (this : NMSRotatePlugin) (s : Z) : NMSRotatePlugin :=
  mkNMSRotatePlugin (_nms_thresh this) (_detections_per_im this) (_count this) s.

(** Every member holds a value of its C type. *)
Definition well_formed (p : NMSRotatePlugin) : Prop :=
  representable T_float (_nms_thresh p) /\
  representable T_int (_detections_per_im p) /\
  representable T_size_t (_count p) /\
  representable T_int (size p).

(** What the constructors assert. *)
Definition valid_configuration (p : NMSRotatePlugin) : Prop :=
  float_gt (_nms_thresh p) float_zero = true /\
  0 < _detections_per_im p /\
  0 < _count p.

Definition deserialize (this : NMSRotatePlugin) (data : list byte) (length : Z)
  : outcome NMSRotatePlugin :=
  r1 <- read T_float data ;;
  r2 <- read T_int (snd r1) ;;
  r3 <- read T_size_t (snd r2) ;;
  Ok (mkNMSRotatePlugin (fst r1) (fst r2) (fst r3) (size this)).

Definition getSerializationSize (this : NMSRotatePlugin) : Z :=
  Z.of_nat (sizeof T_float) + Z.of_nat (sizeof T_int) + Z.of_nat (sizeof T_size_t).

Definition serialize (this : NMSRotatePlugin) : list byte :=
  let b := write T_float [] (_nms_thresh this) in
  let b := write T_int b (_detections_per_im this) in
  write T_size_t b (_count this).

(** [NMSRotatePlugin(float, int)]: [_count] is left uninitialised;
    [indeterminate] is whatever the member happens to hold. *)
Definition NMSRotatePlugin2 (nms_thresh : float) (detections_per_im : Z)
    (indeterminate : Z) : outcome NMSRotatePlugin :=
  assert (float_gt nms_thresh float_zero) ;;;
  assert (detections_per_im >? 0) ;;;
  Ok (mkNMSRotatePlugin nms_thresh detections_per_im indeterminate (-1)).

(** [NMSRotatePlugin(float, int, size_t)]. *)
Definition NMSRotatePlugin3 (nms_thresh : float) (detections_per_im : Z)
    (count : Z) : outcome NMSRotatePlugin :=
  assert (float_gt nms_thresh float_zero) ;;;
  assert (detections_per_im >? 0) ;;;
  assert (count >? 0) ;;;
  Ok (mkNMSRotatePlugin nms_thresh detections_per_im count (-1)).

(** [NMSRotatePlugin(void const*, size_t)]: the three members are
    overwritten by [deserialize], [size] keeps its default initialiser. *)
Definition NMSRotatePlugin_data (data : list byte) (length : Z)
  : outcome NMSRotatePlugin :=
  deserialize (mkNMSRotatePlugin 0 0 0 (-1)) data length.

(** [NMSRotatePluginCreator::deserializePlugin]. *)
Definition deserializePlugin (serialData : list byte) (serialLength : Z)
  : outcome NMSRotatePlugin :=
  NMSRotatePlugin_data serialData serialLength.

Definition getNbOutputs (this : NMSRotatePlugin) : Z := 3.

Definition getOutputDimensions (this : NMSRotatePlugin) (index : Z)
    (inputs : list Dims) (nbInputDims : Z) : outcome Dims :=
  assert (nbInputDims =? 3) ;;;
  assert (index <? getNbOutputs this) ;;;
  n <- int_mul (_detections_per_im this) (if index =? 1 then 6 else 1) ;;
  Ok (Dims3 n 1 1).

Definition supportsFormat (this : NMSRotatePlugin) (type : DataType)
    (format : PluginFormat) : bool :=
  DataType_eqb type kFLOAT && PluginFormat_eqb format kLINEAR.

Definition getOutputDataType (this : NMSRotatePlugin) (index : Z)
    (inputTypes : list DataType) (nbInputs : Z) : outcome DataType :=
  assert (index <? 3) ;;;
  Ok kFLOAT.

(** [configurePlugin]: only the arguments the body reads are kept. *)
Definition configurePlugin (this : NMSRotatePlugin) (inputDims : list Dims)
    (nbInputs : Z) (inputTypes : list DataType) (floatFormat : PluginFormat)
  : outcome NMSRotatePlugin :=
  t0 <- index inputTypes 0 ;;
  assert (DataType_eqb t0 kFLOAT && PluginFormat_eqb floatFormat kLINEAR) ;;;
  assert (nbInputs =? 3) ;;;
  i0 <- index inputDims 0 ;;
  i2 <- index inputDims 2 ;;
  assert (d0 i0 =? d0 i2) ;;;
  i1 <- index inputDims 1 ;;
  m <- int_mul (d0 i2) 6 ;;
  assert (d0 i1 =? m) ;;;
  Ok (set_count this (to_size_t (d0 i0))).

Definition clone (this : NMSRotatePlugin) : outcome NMSRotatePlugin :=
  NMSRotatePlugin3 (_nms_thresh this) (_detections_per_im this) (_count this).

(** ** Workspace sizing and its cache *)

Section Workspace.

(** The sizing path of [cuda::nms_rotate], taken when it is called with a
    null workspace: it returns the scratch bytes needed for
    [batch_size], [count], [detections_per_im] and [nms_thresh]. Its body
    is in csrc/cuda, outside this header, and is a parameter here. *)
Variable nms_rotate_workspace : Z -> Z -> Z -> float -> Z.

Definition getWorkspaceSize (this : NMSRotatePlugin) (maxBatchSize : Z)
  : Z * NMSRotatePlugin :=
  let this' :=
    if size this <? 0
    then set_size this
           (to_int (nms_rotate_workspace maxBatchSize (_count this)
                      (_detections_per_im this) (_nms_thresh this)))
    else this in
  (to_size_t (size this'), this').

(** What the sizing path computes for a batch size under the plugin's
    current configuration. *)
Definition sizing (this : NMSRotatePlugin) (batch : Z) : Z :=
  nms_rotate_workspace batch (_count this) (_detections_per_im this)
    (_nms_thresh this).

End Workspace.

(** ** The suppression pass *)

Record RotatedBox : Type := mkRotatedBox {
  cx : float; cy : float; width : float; height : float;
  angle : float; aux : float
}.

Record Candidate : Type := mkCandidate {
  score : float;
  box : RotatedBox;
  class_id : float
}.

Section Suppression.

(** The geometry primitive, rotated IoU of two boxes; its body is in
    csrc/cuda and is a parameter here. *)
Variable overlap : RotatedBox -> RotatedBox -> float.

(** Modelled from the spec: the Candidate Ranker of section 4.2, part of
    [cuda::nms_rotate] (csrc/cuda, not in this header). Candidates are
    ordered by score descending; equal scores keep their original order. *)
Fixpoint rank_insert (c : Candidate) (ranked : list Candidate) : list Candidate :=
  match ranked with
  | [] => [c]
  | x :: rest =>
      if float_lt (score c) (score x)
      then x :: rank_insert c rest
      else c :: ranked
  end.

(** Modelled from the spec: the Candidate Ranker of section 4.2, part of
    [cuda::nms_rotate] (csrc/cuda, not in this header). *)
Definition rank (candidates : list Candidate) : list Candidate :=
  fold_right rank_insert [] candidates.

(** Modelled from the spec: the Suppression Engine of section 4.3, part of
    [cuda::nms_rotate] (csrc/cuda, not in this header). Candidates are
    visited in ranked order; one is kept when its overlap with every
    detection kept so far is at most [nms_thresh]; nothing more is kept
    once [detections_per_im] detections are. *)
Fixpoint suppress (nms_thresh : float) (detections_per_im : nat)
    (kept ranked : list Candidate) : list Candidate :=
  match ranked with
  | [] => kept
  | c :: rest =>
      if (detections_per_im <=? length kept)%nat then kept
      else if forallb (fun k => float_le (overlap (box c) (box k)) nms_thresh) kept
           then suppress nms_thresh detections_per_im (kept ++ [c]) rest
           else suppress nms_thresh detections_per_im kept rest
  end.

(** Modelled from the spec: the Batch Dispatcher of section 4.4, the
    execution path of [cuda::nms_rotate] (csrc/cuda, not in this header).
    Each of the first [batch_size] images is ranked and suppressed on its
    first [count] candidates, independently of the others; the result is
    the kept detections of each image, in keeping order. *)
Definition nms_rotate (batch_size : Z) (inputs : list (list Candidate))
    (count : Z) (detections_per_im : Z) (nms_thresh : float)
  : list (list Candidate) :=
  map (fun image =>
         suppress nms_thresh (Z.to_nat detections_per_im) []
           (rank (firstn (Z.to_nat count) image)))
      (firstn (Z.to_nat batch_size) inputs).

(** Each detection of [kept] overlaps every detection kept before it by
    at most [nms_thresh]. *)
Definition separated (nms_thresh : float) (kept : list Candidate) : Prop :=
  forall i j a b,
    (i < j)%nat -> nth_error kept i = Some a -> nth_error kept j = Some b ->
    float_le (overlap (box b) (box a)) nms_thresh = true.

Variable nms_rotate_workspace : Z -> Z -> Z -> float -> Z.

(** [enqueue]: the workspace size is queried (and possibly cached) on the
    way into [cuda::nms_rotate]. The result is what the pass leaves in the
    output slots, the kept detections of each image, together with the
    plugin after the query; the [int] status is not modelled. *)
Definition enqueue (this : NMSRotatePlugin) (batchSize : Z)
    (inputs : list (list Candidate))
  : list (list Candidate) * NMSRotatePlugin :=
  let ws := getWorkspaceSize nms_rotate_workspace this batchSize in
  (nms_rotate batchSize inputs (_count this) (_detections_per_im this)
     (_nms_thresh this),
   snd ws).

End Suppression.

(** ** Sample instances of the parameters *)

(** Modelled from the spec: the Workspace Sizing Oracle of section 4.5, the
    sizing path of [cuda::nms_rotate] (csrc/cuda, not in this header). The
    spec names the intermediates and not their sizes; this layout holds, per
    image, a rank buffer of [count] scores and [count] indices, the indices
    of up to [detections_per_im] kept detections and one kept-count
    counter, four bytes each. *)
Definition required_workspace (batch_size count detections_per_im : Z)
    (nms_thresh : float) : Z :=
  batch_size * (4 * count + 4 * count + 4 * detections_per_im + 4).

(** A stand-in geometry primitive for concrete runs: boxes that coincide
    overlap fully (1.0f), all others not at all (0.0f). *)
Definition coincide (a b : RotatedBox) : float :=
  if (cx a =? cx b) && (cy a =? cy b) && (width a =? width b)
     && (height a =? height b) && (angle a =? angle b)
  then 1065353216 else 0.

(** 0.5f, 0.9f and 0.3f. *)
Definition f_half : float := 1056964608.
Definition f_0_9 : float := 1063675494.
Definition f_0_3 : float := 1050253722.
Definition f_one : float := 1065353216.

Definition unit_box (x : float) : RotatedBox :=
  mkRotatedBox x float_zero f_one f_one float_zero float_zero.

Definition sample_plugin : NMSRotatePlugin :=
  mkNMSRotatePlugin f_half 100 1000 (-1).

(** One image: two coinciding boxes scored 0.5 and 0.9, a third box
    elsewhere scored 0.3. *)
Definition sample_image : list Candidate :=
  [ mkCandidate f_half (unit_box float_zero) float_zero;
    mkCandidate f_0_9 (unit_box float_zero) float_zero;
    mkCandidate f_0_3 (unit_box f_one) float_zero ].

(** Input dimensions of 10 scores, 60 box coordinates and 10 classes. *)
Definition sample_dims : list Dims :=
  [Dims3 10 1 1; Dims3 60 1 1; Dims3 10 1 1].

(** * Properties *)

(** ** Outcomes *)

Lemma bind_Ok_inv {A B : Type} (c : outcome A) (k : A -> outcome B) (b : B) :
  bind c k = Ok b -> exists a, c = Ok a /\ k a = Ok b.
Proof.
  destruct c as [a | |]; simpl; intros H; try discriminate H.
  exists a. split; [reflexivity | exact H].
Qed.

(** ** Arithmetic of the conversions *)

Lemma int_of_bits_wrap (v : Z) : in_int v -> int_of_bits (v mod 2 ^ 32) = v.
Proof.
  unfold in_int, INT_MIN, INT_MAX, int_of_bits.
  change (2 ^ 31) with 2147483648; change (2 ^ 32) with 4294967296.
  intros Hv.
  destruct (Z.ltb_spec (v mod 4294967296) 2147483648);
    Z.div_mod_to_equations; lia.
Qed.

Lemma to_int_id (v : Z) : in_int v -> to_int v = v.
Proof. apply int_of_bits_wrap. Qed.

Lemma to_size_t_id (v : Z) : in_size_t v -> to_size_t v = v.
Proof.
  unfold in_size_t, SIZE_MAX, to_size_t. intros Hv.
  apply Z.mod_small. lia.
Qed.

Lemma nonneg_int_in_size_t (v : Z) : 0 <= v <= INT_MAX -> in_size_t v.
Proof. unfold in_size_t, INT_MAX, SIZE_MAX. lia. Qed.

Lemma nonneg_int_in_int (v : Z) : 0 <= v <= INT_MAX -> in_int v.
Proof. unfold in_int, INT_MAX, INT_MIN. lia. Qed.

Lemma in_intb_spec (z : Z) : in_intb z = true <-> in_int z.
Proof. unfold in_intb, in_int. rewrite andb_true_iff, !Z.leb_le. tauto. Qed.

Lemma DataType_eqb_eq (a b : DataType) : DataType_eqb a b = true <-> a = b.
Proof. destruct a, b; simpl; split; intros H; try reflexivity; discriminate H. Qed.

Lemma PluginFormat_eqb_eq (a b : PluginFormat) : PluginFormat_eqb a b = true <-> a = b.
Proof. destruct a, b; simpl; split; intros H; try reflexivity; discriminate H. Qed.

(** ** Object representations: reading back what was written *)

Lemma value_of_bits_split (t : ctype) (v : Z) :
  representable t v ->
  value_of_bits t (le_combine (le_split (sizeof t) v)) = v.
Proof.
  intros Hv. rewrite le_combine_split.
  destruct t; simpl in *.
  - apply Z.mod_small. exact Hv.
  - apply int_of_bits_wrap. exact Hv.
  - apply to_size_t_id. exact Hv.
Qed.

Lemma read_split (t : ctype) (v : Z) (rest : list byte) :
  representable t v ->
  read t (le_split (sizeof t) v ++ rest) = Ok (v, rest).
Proof.
  intros Hv. unfold read.
  pose proof (length_le_split (sizeof t) v) as Hlen.
  rewrite length_app, Hlen.
  destruct (Nat.ltb_spec (sizeof t + length rest) (sizeof t)) as [Hlt | _];
    [lia |].
  rewrite <- Hlen at 1. rewrite firstn_app, firstn_all, Nat.sub_diag.
  simpl firstn at 1. rewrite app_nil_r.
  rewrite <- Hlen at 2. rewrite skipn_app, skipn_all, Nat.sub_diag.
  simpl. rewrite value_of_bits_split by exact Hv. reflexivity.
Qed.

Lemma serialize_layout (p : NMSRotatePlugin) :
  serialize p =
    le_split (sizeof T_float) (_nms_thresh p)
    ++ le_split (sizeof T_int) (_detections_per_im p)
    ++ le_split (sizeof T_size_t) (_count p).
Proof. unfold serialize, write. cbv zeta. rewrite app_nil_l, <- app_assoc. reflexivity. Qed.

Lemma serialize_length (p : NMSRotatePlugin) :
  Z.of_nat (length (serialize p)) = getSerializationSize p.
Proof.
  rewrite serialize_layout, !length_app, !length_le_split.
  unfold getSerializationSize. lia.
Qed.

Lemma deserialize_serialize (this p : NMSRotatePlugin) (rest : list byte) (len : Z) :
  well_formed p ->
  deserialize this (serialize p ++ rest) len =
    Ok (mkNMSRotatePlugin (_nms_thresh p) (_detections_per_im p) (_count p) (size this)).
Proof.
  intros (Ht & Hd & Hc & _).
  unfold deserialize. rewrite serialize_layout, <- !app_assoc.
  rewrite (read_split T_float) by exact Ht. cbn [bind snd fst].
  rewrite (read_split T_int) by exact Hd. cbn [bind snd fst].
  rewrite (read_split T_size_t) by exact Hc. reflexivity.
Qed.

(** ** Reading depends on the leading bytes only *)

Lemma read_firstn (t : ctype) (n : nat) (buffer : list byte) :
  (sizeof t <= n)%nat ->
  read t (firstn n buffer) =
    match read t buffer with
    | Ok (v, rest) => Ok (v, firstn (n - sizeof t) rest)
    | AssertionFailed => AssertionFailed
    | Undefined => Undefined
    end.
Proof.
  intros Hn. unfold read. rewrite length_firstn.
  destruct (Nat.ltb_spec (length buffer) (sizeof t)) as [Hshort | Hlong].
  - destruct (Nat.ltb_spec (Nat.min n (length buffer)) (sizeof t)); [reflexivity | lia].
  - destruct (Nat.ltb_spec (Nat.min n (length buffer)) (sizeof t)); [lia |].
    rewrite firstn_firstn, (Nat.min_l _ _ Hn), skipn_firstn_comm. reflexivity.
Qed.

Lemma deserialize_firstn (this : NMSRotatePlugin) (data : list byte) (l1 l2 : Z) :
  deserialize this (firstn 16 data) l1 = deserialize this data l2.
Proof.
  unfold deserialize.
  rewrite (read_firstn T_float 16) by (simpl; lia).
  destruct (read T_float data) as [[v1 r1] | |]; cbn [bind snd fst]; try reflexivity.
  change (16 - sizeof T_float)%nat with 12%nat.
  rewrite (read_firstn T_int 12) by (simpl; lia).
  destruct (read T_int r1) as [[v2 r2] | |]; cbn [bind snd fst]; try reflexivity.
  change (12 - sizeof T_int)%nat with 8%nat.
  rewrite (read_firstn T_size_t 8) by (simpl; lia).
  destruct (read T_size_t r2) as [[v3 r3] | |]; cbn [bind snd fst]; reflexivity.
Qed.

Lemma read_enough (t : ctype) (buffer : list byte) :
  (sizeof t <= length buffer)%nat ->
  exists v, read t buffer = Ok (v, skipn (sizeof t) buffer).
Proof.
  intros H. unfold read.
  destruct (Nat.ltb_spec (length buffer) (sizeof t)); [lia |].
  eexists. reflexivity.
Qed.

Lemma deserialize_enough (this : NMSRotatePlugin) (data : list byte) (len : Z) :
  (16 <= length data)%nat ->
  exists q, deserialize this data len = Ok q /\ size q = size this.
Proof.
  intros H. unfold deserialize.
  destruct (read_enough T_float data) as [v1 E1]; [simpl; lia |].
  rewrite E1. cbn [bind snd fst sizeof].
  destruct (read_enough T_int (skipn 4 data)) as [v2 E2];
    [rewrite length_skipn; simpl; lia |].
  rewrite E2. cbn [bind snd fst sizeof].
  destruct (read_enough T_size_t (skipn 4 (skipn 4 data))) as [v3 E3];
    [rewrite !length_skipn; simpl; lia |].
  rewrite E3. cbn [bind snd fst].
  eexists. split; reflexivity.
Qed.

(** ** Serialization *)

(** C3: [serialize] writes exactly [getSerializationSize()] bytes, the
    unpadded concatenation of the object representations of [_nms_thresh]
    (float), [_detections_per_im] (int) and [_count] (size_t) in this order,
    and the deserializing constructor applied to a buffer that starts with
    these bytes builds a plugin with the same three members. *)
Theorem serialize_deserialize_roundtrip
    (p : NMSRotatePlugin) (rest : list byte) (len : Z) :
  well_formed p ->
  Z.of_nat (length (serialize p)) = getSerializationSize p /\
  serialize p =
    le_split (sizeof T_float) (_nms_thresh p)
    ++ le_split (sizeof T_int) (_detections_per_im p)
    ++ le_split (sizeof T_size_t) (_count p) /\
  exists q,
    NMSRotatePlugin_data (serialize p ++ rest) len = Ok q /\
    _nms_thresh q = _nms_thresh p /\
    _detections_per_im q = _detections_per_im p /\
    _count q = _count p.
Proof.
  intros Hwf. split; [apply serialize_length |].
  split; [apply serialize_layout |].
  unfold NMSRotatePlugin_data.
  rewrite deserialize_serialize by exact Hwf.
  eexists. split; [reflexivity |]. simpl. auto.
Qed.

Lemma sample_plugin_well_formed : well_formed sample_plugin.
Proof.
  unfold well_formed, representable, in_int, in_size_t, INT_MIN, INT_MAX,
    SIZE_MAX, sample_plugin, f_half; simpl. lia.
Defined.

Lemma serialize_deserialize_roundtrip_witness :
  well_formed sample_plugin /\
  exists q,
    NMSRotatePlugin_data (serialize sample_plugin ++ [Byte.xff]) 17 = Ok q /\
    _nms_thresh q = f_half /\ _detections_per_im q = 100 /\ _count q = 1000.
Proof.
  split; [exact sample_plugin_well_formed |].
  exact (proj2 (proj2 (serialize_deserialize_roundtrip sample_plugin [Byte.xff] 17
                         sample_plugin_well_formed))).
Defined.

(** C9: the deserializing constructor looks at the first
    [sizeof(float) + sizeof(int) + sizeof(size_t)] bytes of its buffer and
    at nothing else: two buffers that agree on these bytes give the same
    outcome whatever the two length arguments are, and a buffer that holds
    that many bytes gives a plugin. *)
Theorem deserialize_leading_bytes_only
    (data1 data2 : list byte) (length1 length2 : Z) :
  firstn (sizeof T_float + sizeof T_int + sizeof T_size_t) data1 =
  firstn (sizeof T_float + sizeof T_int + sizeof T_size_t) data2 ->
  NMSRotatePlugin_data data1 length1 = NMSRotatePlugin_data data2 length2 /\
  ((sizeof T_float + sizeof T_int + sizeof T_size_t <= length data1)%nat ->
   exists q,
     NMSRotatePlugin_data data1 length1 = Ok q /\
     NMSRotatePlugin_data data2 length2 = Ok q).
Proof.
  change (sizeof T_float + sizeof T_int + sizeof T_size_t)%nat with 16%nat.
  intros Hagree. unfold NMSRotatePlugin_data.
  assert (Heq : forall this,
             deserialize this data1 length1 = deserialize this data2 length2).
  { intros this.
    rewrite <- (deserialize_firstn this data1 0 length1).
    rewrite <- (deserialize_firstn this data2 0 length2).
    rewrite Hagree. reflexivity. }
  split; [apply Heq |].
  intros Hlen.
  destruct (deserialize_enough (mkNMSRotatePlugin 0 0 0 (-1)) data1 length1 Hlen)
    as (q & Hq & _).
  exists q. split; [exact Hq |]. rewrite <- Heq. exact Hq.
Qed.

Lemma deserialize_leading_bytes_only_witness :
  NMSRotatePlugin_data (serialize sample_plugin ++ [Byte.x01; Byte.x02]) 16 =
  NMSRotatePlugin_data (serialize sample_plugin ++ [Byte.xff]) 0.
Proof.
  apply (deserialize_leading_bytes_only
           (serialize sample_plugin ++ [Byte.x01; Byte.x02])
           (serialize sample_plugin ++ [Byte.xff]) 16 0).
  reflexivity.
Defined.

(** ** Construction *)

Lemma float_le_not_gt (a b : float) : float_le a b = true -> float_gt a b = false.
Proof.
  unfold float_le, float_gt, float_lt. rewrite !andb_true_iff.
  intros [[Ha Hb] Hle]. apply Z.leb_le in Hle.
  rewrite Ha, Hb. simpl. apply Z.ltb_ge. exact Hle.
Qed.

(** Direct construction with a candidate count succeeds exactly on the
    configurations the three assertions let through. *)
Lemma NMSRotatePlugin3_accepts (nms_thresh : float) (detections_per_im count : Z)
    (p : NMSRotatePlugin) :
  NMSRotatePlugin3 nms_thresh detections_per_im count = Ok p <->
  float_gt nms_thresh float_zero = true /\ 0 < detections_per_im /\ 0 < count /\
  p = mkNMSRotatePlugin nms_thresh detections_per_im count (-1).
Proof.
  unfold NMSRotatePlugin3, assert.
  destruct (float_gt nms_thresh float_zero); cbn [bind];
    [| split; [discriminate | intros (Hx & _); discriminate Hx]].
  destruct (Z.gtb_spec detections_per_im 0) as [Hd | Hd]; cbn [bind];
    [| split; [discriminate | intros (_ & Hx & _); lia]].
  destruct (Z.gtb_spec count 0) as [Hc | Hc]; cbn [bind];
    [| split; [discriminate | intros (_ & _ & Hx & _); lia]].
  split.
  - intros E. injection E as <-. repeat split; lia.
  - intros (_ & _ & _ & ->). reflexivity.
Qed.

Lemma NMSRotatePlugin3_rejects (nms_thresh : float) (detections_per_im count : Z) :
  float_le nms_thresh float_zero = true \/ detections_per_im <= 0 \/ count <= 0 ->
  NMSRotatePlugin3 nms_thresh detections_per_im count = AssertionFailed.
Proof.
  intros H. unfold NMSRotatePlugin3, assert.
  destruct (float_gt nms_thresh float_zero) eqn:Et; cbn [bind]; [| reflexivity].
  destruct (Z.gtb_spec detections_per_im 0); cbn [bind]; [| reflexivity].
  destruct (Z.gtb_spec count 0); cbn [bind]; [| reflexivity].
  destruct H as [H | [H | H]]; [| lia | lia].
  apply float_le_not_gt in H. congruence.
Qed.

Lemma NMSRotatePlugin2_rejects (nms_thresh : float) (detections_per_im junk : Z) :
  float_le nms_thresh float_zero = true \/ detections_per_im <= 0 ->
  NMSRotatePlugin2 nms_thresh detections_per_im junk = AssertionFailed.
Proof.
  intros H. unfold NMSRotatePlugin2, assert.
  destruct (float_gt nms_thresh float_zero) eqn:Et; cbn [bind]; [| reflexivity].
  destruct (Z.gtb_spec detections_per_im 0); cbn [bind]; [| reflexivity].
  destruct H as [H | H]; [| lia].
  apply float_le_not_gt in H. congruence.
Qed.

(** C2: the two direct constructors assert their arguments, the
    deserializing one asserts nothing. Sixteen zero bytes, which the direct
    constructor refuses as the configuration (0.0f, 0, 0), deserialize into a
    plugin with exactly that configuration. *)
Theorem deserializePlugin_accepts_invalid_configuration :
  NMSRotatePlugin3 float_zero 0 0 = AssertionFailed /\
  deserializePlugin (repeat Byte.x00 16) 16 =
    Ok (mkNMSRotatePlugin float_zero 0 0 (-1)) /\
  ~ valid_configuration (mkNMSRotatePlugin float_zero 0 0 (-1)).
Proof.
  split; [reflexivity |]. split; [reflexivity |].
  intros (_ & H & _). simpl in H. lia.
Qed.

(** ** Negotiation and output layout *)

(** C7: [supportsFormat] answers true exactly for single-precision float in
    the linear format; it is a pure test of its two arguments. *)
Theorem supportsFormat_float_linear_only
    (this : NMSRotatePlugin) (type : DataType) (format : PluginFormat) :
  supportsFormat this type format = true <-> type = kFLOAT /\ format = kLINEAR.
Proof.
  unfold supportsFormat.
  rewrite andb_true_iff, DataType_eqb_eq, PluginFormat_eqb_eq. tauto.
Qed.

Lemma int_mul_in_range (a b : Z) : in_int (a * b) -> int_mul a b = Ok (a * b).
Proof.
  intros H. unfold int_mul. apply in_intb_spec in H. rewrite H. reflexivity.
Qed.

(** C6: the plugin has three outputs; with [detections_per_im * 6]
    representable as an [int], output 1 (boxes) has
    [detections_per_im * 6] elements, outputs 0 and 2 (scores, classes) have
    [detections_per_im] elements, and each output is single-precision
    float. *)
Theorem outputs_layout
    (this : NMSRotatePlugin) (index : Z) (inputs : list Dims)
    (inputTypes : list DataType) (nbInputs : Z) :
  0 <= index < getNbOutputs this ->
  in_int (_detections_per_im this) ->
  in_int (_detections_per_im this * 6) ->
  getNbOutputs this = 3 /\
  (exists dims,
     getOutputDimensions this index inputs 3 = Ok dims /\
     volume dims =
       if index =? 1 then _detections_per_im this * 6
       else _detections_per_im this) /\
  getOutputDataType this index inputTypes nbInputs = Ok kFLOAT.
Proof.
  unfold getNbOutputs. intros Hi Hd Hd6.
  split; [reflexivity |].
  unfold getOutputDimensions, getOutputDataType, getNbOutputs, assert.
  destruct (Z.ltb_spec index 3) as [_ | Hge]; [| lia].
  cbn [bind Z.eqb].
  split; [| reflexivity].
  destruct (Z.eqb_spec index 1) as [-> | Hne].
  - rewrite int_mul_in_range by exact Hd6. cbn [bind].
    eexists. split; [reflexivity |].
    unfold volume, Dims3. simpl. lia.
  - rewrite int_mul_in_range by (rewrite Z.mul_1_r; exact Hd). cbn [bind].
    eexists. split; [reflexivity |].
    unfold volume, Dims3. simpl. lia.
Qed.

Lemma outputs_layout_witness :
  (exists dims,
     getOutputDimensions sample_plugin 1 sample_dims 3 = Ok dims /\
     volume dims = 600) /\
  getOutputDataType sample_plugin 1 [kFLOAT; kFLOAT; kFLOAT] 3 = Ok kFLOAT.
Proof.
  apply (outputs_layout sample_plugin 1 sample_dims [kFLOAT; kFLOAT; kFLOAT] 3).
  - unfold getNbOutputs. lia.
  - unfold in_int, INT_MIN, INT_MAX. simpl. lia.
  - unfold in_int, INT_MIN, INT_MAX. simpl. lia.
Defined.

(** ** Configuration *)

Lemma index_Ok {A : Type} (a : list A) (i : nat) (x : A) :
  index a i = Ok x <-> nth_error a i = Some x.
Proof.
  unfold index. destruct (nth_error a i); split; intros H;
    try discriminate H; injection H as ->; reflexivity.
Qed.

(** C5, as the code has it: [configurePlugin] passes all its assertions
    exactly when the first input's type is single-precision float, the
    format is linear, there are three inputs, input 0 (scores) and input 2
    (classes) have equal length and input 1 (boxes) has 6 times the length
    of input 2, this product being an [int]; the types of inputs 1 and 2 are
    not looked at. On success [_count] is the length of the scores input,
    converted to [size_t], and nothing else changes. *)
Theorem configurePlugin_accepts_iff
    (this : NMSRotatePlugin) (inputDims : list Dims) (nbInputs : Z)
    (inputTypes : list DataType) (floatFormat : PluginFormat)
    (configured : NMSRotatePlugin) :
  configurePlugin this inputDims nbInputs inputTypes floatFormat = Ok configured
  <->
  exists scores boxes classes,
    nth_error inputTypes 0 = Some kFLOAT /\ floatFormat = kLINEAR /\
    nbInputs = 3 /\
    nth_error inputDims 0 = Some scores /\
    nth_error inputDims 1 = Some boxes /\
    nth_error inputDims 2 = Some classes /\
    d0 scores = d0 classes /\
    d0 boxes = d0 classes * 6 /\ in_int (d0 classes * 6) /\
    configured = set_count this (to_size_t (d0 scores)).
Proof.
  unfold configurePlugin. split.
  - destruct (index inputTypes 0) as [t0 | |] eqn:Et; cbn [bind]; try discriminate.
    unfold assert at 1.
    destruct (DataType_eqb t0 kFLOAT && PluginFormat_eqb floatFormat kLINEAR) eqn:Ef;
      cbn [bind]; try discriminate.
    apply andb_true_iff in Ef. destruct Ef as [Ety Efmt].
    apply DataType_eqb_eq in Ety. apply PluginFormat_eqb_eq in Efmt. subst t0.
    unfold assert at 1.
    destruct (Z.eqb_spec nbInputs 3) as [Hn | Hn]; cbn [bind]; try discriminate.
    destruct (index inputDims 0) as [i0 | |] eqn:E0; cbn [bind]; try discriminate.
    destruct (index inputDims 2) as [i2 | |] eqn:E2; cbn [bind]; try discriminate.
    unfold assert at 1.
    destruct (Z.eqb_spec (d0 i0) (d0 i2)) as [H02 | H02]; cbn [bind]; try discriminate.
    destruct (index inputDims 1) as [i1 | |] eqn:E1; cbn [bind]; try discriminate.
    unfold int_mul.
    destruct (in_intb (d0 i2 * 6)) eqn:Hin; cbn [bind]; try discriminate.
    unfold assert.
    destruct (Z.eqb_spec (d0 i1) (d0 i2 * 6)) as [H12 | H12]; cbn [bind]; try discriminate.
    intros E. injection E as <-.
    exists i0, i1, i2.
    apply index_Ok in Et, E0, E1, E2. apply in_intb_spec in Hin.
    repeat split; try assumption; apply Hin.
  - intros (scores & boxes & classes & Et & -> & -> & E0 & E1 & E2 & H02 & H12 & Hin & ->).
    apply index_Ok in Et, E0, E1, E2. rewrite Et, E0, E1, E2. cbn [bind].
    cbn [DataType_eqb PluginFormat_eqb andb assert bind Z.eqb Pos.eqb].
    rewrite H02, Z.eqb_refl. cbn [assert bind].
    rewrite int_mul_in_range by exact Hin. cbn [bind].
    rewrite H12, Z.eqb_refl. reflexivity.
Qed.

(** When the three input dimensions and the first input type can be read
    and the product does not overflow, every violation is an assertion
    failure of [configurePlugin] itself. *)
Lemma configurePlugin_violation_asserts
    (this : NMSRotatePlugin) (scores boxes classes : Dims) (nbInputs : Z)
    (t0 : DataType) (types : list DataType) (floatFormat : PluginFormat) :
  in_int (d0 classes * 6) ->
  ~ (t0 = kFLOAT /\ floatFormat = kLINEAR /\ nbInputs = 3 /\
     d0 scores = d0 classes /\ d0 boxes = d0 classes * 6) ->
  configurePlugin this [scores; boxes; classes] nbInputs (t0 :: types) floatFormat
  = AssertionFailed.
Proof.
  intros Hin Hviol. unfold configurePlugin. cbn [index nth_error bind].
  unfold assert at 1.
  destruct (DataType_eqb t0 kFLOAT && PluginFormat_eqb floatFormat kLINEAR) eqn:Ef;
    cbn [bind]; [| reflexivity].
  apply andb_true_iff in Ef. destruct Ef as [Ety Efmt].
  apply DataType_eqb_eq in Ety. apply PluginFormat_eqb_eq in Efmt.
  unfold assert at 1.
  destruct (Z.eqb_spec nbInputs 3) as [Hn | Hn]; cbn [bind]; [| reflexivity].
  unfold assert at 1.
  destruct (Z.eqb_spec (d0 scores) (d0 classes)) as [H02 | H02]; cbn [bind];
    [| reflexivity].
  rewrite int_mul_in_range by exact Hin. cbn [bind]. unfold assert.
  destruct (Z.eqb_spec (d0 boxes) (d0 classes * 6)) as [H12 | H12]; cbn [bind];
    [| reflexivity].
  exfalso. apply Hviol. auto.
Qed.

(** C5 as the spec words it fails: with a half-precision second input and
    an integer third input, all assertions hold and the plugin is
    configured. *)
Lemma configurePlugin_accepts_non_float_inputs :
  configurePlugin sample_plugin sample_dims 3 [kFLOAT; kHALF; kINT32] kLINEAR
    = Ok (set_count sample_plugin 10) /\
  ~ Forall (fun t => t = kFLOAT) [kFLOAT; kHALF; kINT32].
Proof.
  split; [reflexivity |].
  intros H. inversion H as [| t l _ H1]. inversion H1 as [| t' l' Hh _].
  discriminate Hh.
Qed.

(** ** The cached workspace size *)

Section WorkspaceProperties.

Variable nms_rotate_workspace : Z -> Z -> Z -> float -> Z.

(** With the cache unset the sizing path runs and its result is stored. *)
Lemma getWorkspaceSize_unset (this : NMSRotatePlugin) (batch : Z) :
  size this < 0 ->
  getWorkspaceSize nms_rotate_workspace this batch =
    (to_size_t (to_int (sizing nms_rotate_workspace this batch)),
     set_size this (to_int (sizing nms_rotate_workspace this batch))).
Proof.
  intros H. unfold getWorkspaceSize, sizing.
  destruct (Z.ltb_spec (size this) 0); [reflexivity | lia].
Qed.

(** With the cache set the stored value is returned, whatever the batch
    size asked for, and the plugin is left as it is. *)
Lemma getWorkspaceSize_set (this : NMSRotatePlugin) (batch : Z) :
  0 <= size this ->
  getWorkspaceSize nms_rotate_workspace this batch =
    (to_size_t (size this), this).
Proof.
  intros H. unfold getWorkspaceSize.
  destruct (Z.ltb_spec (size this) 0); [lia | reflexivity].
Qed.

Lemma configurePlugin_size (this configured : NMSRotatePlugin)
    (inputDims : list Dims) (nbInputs : Z) (inputTypes : list DataType)
    (floatFormat : PluginFormat) :
  configurePlugin this inputDims nbInputs inputTypes floatFormat = Ok configured ->
  size configured = size this /\
  _nms_thresh configured = _nms_thresh this /\
  _detections_per_im configured = _detections_per_im this.
Proof.
  intros H. unfold configurePlugin in H.
  repeat match type of H with
         | bind _ _ = Ok _ =>
             apply bind_Ok_inv in H; destruct H as (? & _ & H)
         end.
  injection H as <-. simpl. auto.
Qed.

(** C1, as the code has it: on a plugin whose cache is unset, a query at
    batch size [b1] returns what the sizing path computes for [b1] with
    the configured count, detections_per_im and nms_thresh (a byte count
    that fits an [int]) and stores it; every later query, at the same or
    at any other batch size [b2], returns that stored value and computes
    nothing. *)
Theorem getWorkspaceSize_first_query_is_cached
    (this : NMSRotatePlugin) (b1 b2 : Z) :
  size this < 0 ->
  0 <= sizing nms_rotate_workspace this b1 <= INT_MAX ->
  getWorkspaceSize nms_rotate_workspace this b1 =
    (sizing nms_rotate_workspace this b1, set_size this (sizing nms_rotate_workspace this b1)) /\
  getWorkspaceSize nms_rotate_workspace (set_size this (sizing nms_rotate_workspace this b1)) b2 =
    (sizing nms_rotate_workspace this b1, set_size this (sizing nms_rotate_workspace this b1)).
Proof.
  intros Hunset Hs.
  rewrite getWorkspaceSize_unset by exact Hunset.
  rewrite to_int_id by (apply nonneg_int_in_int; exact Hs).
  rewrite to_size_t_id by (apply nonneg_int_in_size_t; exact Hs).
  split; [reflexivity |].
  rewrite getWorkspaceSize_set by (simpl; lia).
  simpl size. rewrite to_size_t_id by (apply nonneg_int_in_size_t; exact Hs).
  reflexivity.
Qed.

(** C8: once a query has left a size in the cache, [configurePlugin]
    changes [_count] and leaves the cache alone, and every later query
    returns the size cached before the change. *)
Theorem configurePlugin_keeps_stale_workspace_size
    (this configured : NMSRotatePlugin) (b1 b2 : Z)
    (inputDims : list Dims) (nbInputs : Z) (inputTypes : list DataType)
    (floatFormat : PluginFormat) :
  0 <= size (snd (getWorkspaceSize nms_rotate_workspace this b1)) ->
  configurePlugin (snd (getWorkspaceSize nms_rotate_workspace this b1))
    inputDims nbInputs inputTypes floatFormat = Ok configured ->
  size configured = size (snd (getWorkspaceSize nms_rotate_workspace this b1)) /\
  getWorkspaceSize nms_rotate_workspace configured b2 =
    (fst (getWorkspaceSize nms_rotate_workspace this b1), configured).
Proof.
  intros Hset Hconf.
  destruct (configurePlugin_size _ _ _ _ _ _ Hconf) as (Hsize & _ & _).
  split; [exact Hsize |].
  rewrite getWorkspaceSize_set by (rewrite Hsize; exact Hset).
  rewrite Hsize. unfold getWorkspaceSize. reflexivity.
Qed.

(** C10: for a plugin whose configuration passes the constructor's
    assertions, [clone] builds a plugin with the same nms_thresh,
    detections_per_im and count and with the cache unset, so the clone's
    first query runs the sizing path. *)
Theorem clone_copies_configuration_and_resets_cache
    (this : NMSRotatePlugin) (batch : Z) :
  valid_configuration this ->
  exists c,
    clone this = Ok c /\
    _nms_thresh c = _nms_thresh this /\
    _detections_per_im c = _detections_per_im this /\
    _count c = _count this /\
    size c = -1 /\
    getWorkspaceSize nms_rotate_workspace c batch =
      (to_size_t (to_int (sizing nms_rotate_workspace this batch)),
       set_size c (to_int (sizing nms_rotate_workspace this batch))).
Proof.
  intros (Ht & Hd & Hc).
  exists (mkNMSRotatePlugin (_nms_thresh this) (_detections_per_im this)
            (_count this) (-1)).
  split.
  - unfold clone. apply NMSRotatePlugin3_accepts. auto.
  - repeat (split; [reflexivity |]).
    rewrite getWorkspaceSize_unset by (simpl; lia). reflexivity.
Qed.

End WorkspaceProperties.

Lemma sample_plugin_valid : valid_configuration sample_plugin.
Proof.
  unfold valid_configuration, sample_plugin. simpl.
  split; [reflexivity |]. lia.
Defined.

Lemma getWorkspaceSize_first_query_is_cached_witness :
  getWorkspaceSize required_workspace sample_plugin 1 =
    (8404, set_size sample_plugin 8404) /\
  getWorkspaceSize required_workspace (set_size sample_plugin 8404) 2 =
    (8404, set_size sample_plugin 8404).
Proof.
  apply (getWorkspaceSize_first_query_is_cached required_workspace sample_plugin 1 2).
  - reflexivity.
  - vm_compute. split; discriminate.
Defined.

(** C1 as the spec words it fails. A plugin built for 1000 candidates is
    asked at batch size 1 and then at batch size 2: the second answer is
    the size for batch size 1. After [configurePlugin] has set the count to
    10, the answer is still the size for 1000 candidates. *)
Lemma getWorkspaceSize_ignores_later_batch_size :
  NMSRotatePlugin3 f_half 100 1000 = Ok sample_plugin /\
  (let first := getWorkspaceSize required_workspace sample_plugin 1 in
   let second := getWorkspaceSize required_workspace (snd first) 2 in
   fst second = sizing required_workspace sample_plugin 1 /\
   fst second <> sizing required_workspace sample_plugin 2) /\
  (let first := getWorkspaceSize required_workspace sample_plugin 1 in
   exists configured,
     configurePlugin (snd first) sample_dims 3 [kFLOAT; kFLOAT; kFLOAT] kLINEAR
       = Ok configured /\
     _count configured = 10 /\
     fst (getWorkspaceSize required_workspace configured 1) =
       sizing required_workspace sample_plugin 1 /\
     fst (getWorkspaceSize required_workspace configured 1) <>
       sizing required_workspace configured 1).
Proof.
  split; [reflexivity |].
  split; [split; [reflexivity | discriminate] |].
  eexists. split; [reflexivity |].
  split; [reflexivity |]. split; [reflexivity | discriminate].
Qed.

Lemma configurePlugin_keeps_stale_workspace_size_witness :
  exists configured,
    configurePlugin (snd (getWorkspaceSize required_workspace sample_plugin 1))
      sample_dims 3 [kFLOAT; kFLOAT; kFLOAT] kLINEAR = Ok configured /\
    size configured = 8404 /\
    getWorkspaceSize required_workspace configured 4 = (8404, configured).
Proof.
  exists (set_count (set_size sample_plugin 8404) 10).
  split; [reflexivity |].
  apply (configurePlugin_keeps_stale_workspace_size required_workspace
           sample_plugin (set_count (set_size sample_plugin 8404) 10) 1 4
           sample_dims 3 [kFLOAT; kFLOAT; kFLOAT] kLINEAR).
  - vm_compute. discriminate.
  - reflexivity.
Defined.

Lemma clone_copies_configuration_and_resets_cache_witness :
  valid_configuration sample_plugin /\
  exists c,
    clone (set_size sample_plugin 8404) = Ok c /\
    _nms_thresh c = f_half /\ _detections_per_im c = 100 /\ _count c = 1000 /\
    size c = -1 /\
    getWorkspaceSize required_workspace c 2 = (16808, set_size c 16808).
Proof.
  split; [exact sample_plugin_valid |].
  exact (clone_copies_configuration_and_resets_cache required_workspace
           (set_size sample_plugin 8404) 2 sample_plugin_valid).
Defined.

(** ** The suppression pass keeps detections apart *)

Section SuppressionProperties.

Variable overlap : RotatedBox -> RotatedBox -> float.
Variable nms_thresh : float.
Variable detections_per_im : nat.

Lemma separated_nil : separated overlap nms_thresh [].
Proof. intros i j a b _ Hi. destruct i; discriminate Hi. Qed.

(** Keeping a candidate that passed the test against all kept detections
    preserves the invariant. *)
Lemma separated_snoc (kept : list Candidate) (c : Candidate) :
  separated overlap nms_thresh kept ->
  forallb (fun k => float_le (overlap (box c) (box k)) nms_thresh) kept = true ->
  separated overlap nms_thresh (kept ++ [c]).
Proof.
  intros Hsep Hall i j a b Hij Hi Hj.
  assert (Hjlen : (j < length (kept ++ [c]))%nat)
    by (apply nth_error_Some; rewrite Hj; discriminate).
  rewrite length_app in Hjlen. simpl in Hjlen.
  rewrite nth_error_app1 in Hi by lia.
  destruct (Nat.lt_ge_cases j (length kept)) as [Hin | Hlast].
  - rewrite nth_error_app1 in Hj by exact Hin.
    exact (Hsep i j a b Hij Hi Hj).
  - rewrite nth_error_app2 in Hj by exact Hlast.
    replace (j - length kept)%nat with 0%nat in Hj by lia.
    injection Hj as <-.
    rewrite forallb_forall in Hall.
    apply Hall. eapply nth_error_In. exact Hi.
Qed.

Lemma suppress_separated (ranked kept : list Candidate) :
  separated overlap nms_thresh kept ->
  separated overlap nms_thresh
    (suppress overlap nms_thresh detections_per_im kept ranked).
Proof.
  revert kept. induction ranked as [| c rest IH]; intros kept Hsep.
  - exact Hsep.
  - simpl.
    destruct (detections_per_im <=? length kept)%nat; [exact Hsep |].
    destruct (forallb _ kept) eqn:Hall.
    + apply IH. apply separated_snoc; assumption.
    + apply IH. exact Hsep.
Qed.

(** The cut-off: never more than [detections_per_im] kept detections,
    when the pass starts within the cap. *)
Lemma suppress_cap (ranked kept : list Candidate) :
  (length kept <= detections_per_im)%nat ->
  (length (suppress overlap nms_thresh detections_per_im kept ranked)
   <= detections_per_im)%nat.
Proof.
  revert kept. induction ranked as [| c rest IH]; intros kept Hlen.
  - exact Hlen.
  - simpl.
    destruct (Nat.leb_spec detections_per_im (length kept)); [exact Hlen |].
    destruct (forallb _ kept).
    + apply IH. rewrite length_app. simpl. lia.
    + apply IH. exact Hlen.
Qed.

End SuppressionProperties.

(** C4: with a symmetric overlap measure, in the result of one [enqueue]
    any two kept detections at different positions of the same image
    overlap by at most the plugin's nms_thresh. *)
Theorem enqueue_kept_overlap_bound
    (overlap : RotatedBox -> RotatedBox -> float)
    (nms_rotate_workspace : Z -> Z -> Z -> float -> Z)
    (this : NMSRotatePlugin) (batchSize : Z) (inputs : list (list Candidate))
    (image : list Candidate) (i j : nat) (a b : Candidate) :
  (forall x y, overlap x y = overlap y x) ->
  In image (fst (enqueue overlap nms_rotate_workspace this batchSize inputs)) ->
  i <> j ->
  nth_error image i = Some a ->
  nth_error image j = Some b ->
  float_le (overlap (box a) (box b)) (_nms_thresh this) = true.
Proof.
  intros Hsym Himage Hij Hi Hj.
  unfold enqueue, nms_rotate in Himage. cbn [fst] in Himage.
  apply in_map_iff in Himage. destruct Himage as (candidates & <- & _).
  pose proof (suppress_separated overlap (_nms_thresh this)
                (Z.to_nat (_detections_per_im this))
                (rank (firstn (Z.to_nat (_count this)) candidates)) []
                (separated_nil overlap (_nms_thresh this))) as Hsep.
  destruct (Nat.lt_gt_cases i j) as [Hcases _].
  destruct (Hcases Hij) as [Hlt | Hgt].
  - rewrite Hsym. exact (Hsep i j a b Hlt Hi Hj).
  - exact (Hsep j i b a Hgt Hj Hi).
Qed.

Lemma coincide_sym (x y : RotatedBox) : coincide x y = coincide y x.
Proof.
  unfold coincide.
  rewrite (Z.eqb_sym (cx x)), (Z.eqb_sym (cy x)), (Z.eqb_sym (width x)),
    (Z.eqb_sym (height x)), (Z.eqb_sym (angle x)).
  reflexivity.
Defined.

Lemma enqueue_kept_overlap_bound_witness :
  fst (enqueue coincide required_workspace sample_plugin 1 [sample_image]) =
    [[mkCandidate f_0_9 (unit_box float_zero) float_zero;
      mkCandidate f_0_3 (unit_box f_one) float_zero]] /\
  float_le (coincide (unit_box float_zero) (unit_box f_one)) f_half = true.
Proof.
  split; [reflexivity |].
  apply (enqueue_kept_overlap_bound coincide required_workspace sample_plugin 1
           [sample_image]
           [mkCandidate f_0_9 (unit_box float_zero) float_zero;
            mkCandidate f_0_3 (unit_box f_one) float_zero]
           0%nat 1%nat
           (mkCandidate f_0_9 (unit_box float_zero) float_zero)
           (mkCandidate f_0_3 (unit_box f_one) float_zero)).
  - exact coincide_sym.
  - left. reflexivity.
  - discriminate.
  - reflexivity.
  - reflexivity.
Defined.

(** * Further properties of the header *)

(** ** Reading and writing object representations *)

Lemma int_of_bits_range (bits : Z) :
  0 <= bits < 2 ^ 32 -> in_int (int_of_bits bits).
Proof.
  unfold in_int, INT_MIN, INT_MAX, int_of_bits.
  change (2 ^ 31) with 2147483648; change (2 ^ 32) with 4294967296.
  intros H. destruct (Z.ltb_spec bits 2147483648); lia.
Qed.

Lemma int_of_bits_mod (bits : Z) :
  0 <= bits < 2 ^ 32 -> int_of_bits bits mod 2 ^ 32 = bits.
Proof.
  unfold int_of_bits.
  change (2 ^ 31) with 2147483648; change (2 ^ 32) with 4294967296.
  intros H. destruct (Z.ltb_spec bits 2147483648);
    Z.div_mod_to_equations; lia.
Qed.

Lemma value_of_bits_representable (t : ctype) (bs : list byte) :
  length bs = sizeof t ->
  representable t (value_of_bits t (le_combine bs)).
Proof.
  intros Hlen. pose proof (le_combine_bound bs) as Hb. rewrite Hlen in Hb.
  destruct t; simpl in *.
  - exact Hb.
  - apply int_of_bits_range. exact Hb.
  - unfold in_size_t, SIZE_MAX. lia.
Qed.

Lemma split_value_of_bits (t : ctype) (bs : list byte) :
  length bs = sizeof t ->
  le_split (sizeof t) (value_of_bits t (le_combine bs)) = bs.
Proof.
  intros Hlen. pose proof (le_combine_bound bs) as Hb. rewrite Hlen in Hb.
  destruct t; simpl value_of_bits.
  - rewrite <- Hlen. apply split_le_combine.
  - rewrite le_split_mod. simpl sizeof in *.
    change (Z.of_nat 4 * 8) with 32.
    rewrite int_of_bits_mod by exact Hb.
    rewrite <- Hlen. apply split_le_combine.
  - rewrite <- Hlen. apply split_le_combine.
Qed.

Lemma read_inv (t : ctype) (buffer rest : list byte) (v : Z) :
  read t buffer = Ok (v, rest) ->
  representable t v /\ le_split (sizeof t) v ++ rest = buffer.
Proof.
  unfold read.
  destruct (Nat.ltb_spec (length buffer) (sizeof t)) as [| Hlen];
    [discriminate |].
  intros E. injection E as <- <-.
  assert (Hfirst : length (firstn (sizeof t) buffer) = sizeof t)
    by (rewrite length_firstn; lia).
  split.
  - apply value_of_bits_representable. exact Hfirst.
  - rewrite split_value_of_bits by exact Hfirst. apply firstn_skipn.
Qed.

(** X1: whatever [read<T>] delivers is a value of type [T], and
    [write<T>] of that value puts back exactly the bytes that were
    consumed, in front of the bytes that were left. *)
Theorem read_then_write_restores
    (t : ctype) (buffer rest : list byte) (v : Z) :
  read t buffer = Ok (v, rest) ->
  representable t v /\ write t [] v ++ rest = buffer.
Proof.
  intros H. unfold write. rewrite app_nil_l. exact (read_inv t buffer rest v H).
Qed.

Lemma read_then_write_restores_witness :
  representable T_int (-2) /\
  write T_int [] (-2) ++ [Byte.x07] =
    [Byte.xfe; Byte.xff; Byte.xff; Byte.xff; Byte.x07].
Proof.
  apply (read_then_write_restores T_int
           [Byte.xfe; Byte.xff; Byte.xff; Byte.xff; Byte.x07] [Byte.x07] (-2)).
  reflexivity.
Defined.

Lemma deserialize_inv (this q : NMSRotatePlugin) (data : list byte) (len : Z) :
  deserialize this data len = Ok q ->
  size q = size this /\
  representable T_float (_nms_thresh q) /\
  representable T_int (_detections_per_im q) /\
  representable T_size_t (_count q) /\
  exists rest, serialize q ++ rest = data.
Proof.
  unfold deserialize. intros H.
  apply bind_Ok_inv in H. destruct H as ([v1 r1] & E1 & H).
  apply bind_Ok_inv in H. destruct H as ([v2 r2] & E2 & H).
  apply bind_Ok_inv in H. destruct H as ([v3 r3] & E3 & H).
  cbn [fst snd] in *. injection H as <-.
  cbn [size _nms_thresh _detections_per_im _count].
  apply read_inv in E1, E2, E3.
  destruct E1 as (R1 & <-), E2 as (R2 & <-), E3 as (R3 & <-).
  repeat (split; [first [reflexivity | assumption] |]).
  exists r3. rewrite serialize_layout.
  cbn [size _nms_thresh _detections_per_im _count].
  rewrite <- !app_assoc. reflexivity.
Qed.

(** X2: a plugin that comes out of the deserializing constructor has every
    member within its C type, has its workspace cache unset, and serializes
    back to the first 16 bytes of the buffer it was read from. *)
Theorem deserialize_then_serialize
    (data : list byte) (len : Z) (q : NMSRotatePlugin) :
  NMSRotatePlugin_data data len = Ok q ->
  well_formed q /\ size q = -1 /\
  serialize q = firstn (Z.to_nat (getSerializationSize q)) data.
Proof.
  unfold NMSRotatePlugin_data. intros H.
  apply deserialize_inv in H.
  destruct H as (Hs & Ht & Hd & Hc & rest & <-).
  cbn [size] in Hs.
  split.
  - unfold well_formed. rewrite Hs.
    repeat (split; [assumption |]).
    unfold representable, in_int, INT_MIN, INT_MAX. lia.
  - split; [exact Hs |].
    rewrite <- serialize_length, Nat2Z.id, firstn_app, firstn_all, Nat.sub_diag.
    simpl firstn. rewrite app_nil_r. reflexivity.
Qed.

Lemma deserialize_then_serialize_witness :
  serialize (mkNMSRotatePlugin f_half (-3) 7 (-1)) =
    firstn 16 (serialize (mkNMSRotatePlugin f_half (-3) 7 55) ++ [Byte.x2a]).
Proof.
  apply (deserialize_then_serialize
           (serialize (mkNMSRotatePlugin f_half (-3) 7 55) ++ [Byte.x2a]) 17
           (mkNMSRotatePlugin f_half (-3) 7 (-1))).
  reflexivity.
Defined.

(** X3: the deserializing constructor never fails an assertion; it runs
    into an out-of-bounds read exactly when the buffer holds fewer than 16
    bytes. *)
Theorem deserialize_short_buffer (data : list byte) (len : Z) :
  (NMSRotatePlugin_data data len = Undefined <-> (length data < 16)%nat) /\
  NMSRotatePlugin_data data len <> AssertionFailed.
Proof.
  unfold NMSRotatePlugin_data.
  destruct (Nat.lt_ge_cases (length data) 16) as [Hshort | Hlong].
  - assert (Hu : deserialize (mkNMSRotatePlugin 0 0 0 (-1)) data len = Undefined).
    { unfold deserialize, read. cbn [sizeof].
      destruct (Nat.ltb_spec (length data) 4); cbn [bind snd fst]; [reflexivity |].
      destruct (Nat.ltb_spec (length (skipn 4 data)) 4) as [| H4];
        cbn [bind snd fst]; [reflexivity |].
      destruct (Nat.ltb_spec (length (skipn 4 (skipn 4 data))) 8) as [| H8];
        cbn [bind snd fst]; [reflexivity |].
      rewrite !length_skipn in H8. lia. }
    rewrite Hu. split; [tauto | discriminate].
  - destruct (deserialize_enough (mkNMSRotatePlugin 0 0 0 (-1)) data len Hlong)
      as (q & Hq & _).
    rewrite Hq. split; [| discriminate].
    split; [discriminate | lia].
Qed.

(** X4: two plugins whose members are within their C types and that
    serialize to the same bytes have the same nms_thresh,
    detections_per_im and count. *)
Theorem serialize_injective (p q : NMSRotatePlugin) :
  well_formed p -> well_formed q ->
  serialize p = serialize q ->
  _nms_thresh p = _nms_thresh q /\
  _detections_per_im p = _detections_per_im q /\
  _count p = _count q.
Proof.
  intros Hp Hq Heq.
  pose proof (deserialize_serialize p p [] 0 Hp) as Dp.
  pose proof (deserialize_serialize p q [] 0 Hq) as Dq.
  rewrite Heq in Dp. rewrite Dp in Dq.
  injection Dq as -> -> ->. auto.
Qed.

Lemma serialize_injective_witness :
  _nms_thresh sample_plugin = _nms_thresh (set_size sample_plugin 8404) /\
  _detections_per_im sample_plugin = _detections_per_im (set_size sample_plugin 8404) /\
  _count sample_plugin = _count (set_size sample_plugin 8404).
Proof.
  apply (serialize_injective sample_plugin (set_size sample_plugin 8404)).
  - exact sample_plugin_well_formed.
  - unfold well_formed, representable, in_int, in_size_t, INT_MIN, INT_MAX,
      SIZE_MAX, sample_plugin, f_half; simpl. lia.
  - reflexivity.
Defined.

(** ** Construction and cloning *)

Lemma float_gt_nan (t : float) :
  float_is_nan t = true -> float_gt t float_zero = false.
Proof.
  intros H. unfold float_gt, float_lt. rewrite H.
  rewrite andb_false_r. reflexivity.
Qed.

(** X5: neither direct constructor accepts a NaN threshold: the comparison
    [nms_thresh > 0] is false for it and the first assertion fails. *)
Theorem constructors_reject_nan
    (nms_thresh : float) (detections_per_im count indeterminate : Z) :
  float_is_nan nms_thresh = true ->
  NMSRotatePlugin3 nms_thresh detections_per_im count = AssertionFailed /\
  NMSRotatePlugin2 nms_thresh detections_per_im indeterminate = AssertionFailed.
Proof.
  intros H. apply float_gt_nan in H.
  unfold NMSRotatePlugin3, NMSRotatePlugin2, assert. rewrite H.
  split; reflexivity.
Qed.

Lemma constructors_reject_nan_witness :
  NMSRotatePlugin3 2143289344 100 1000 = AssertionFailed /\
  NMSRotatePlugin2 2143289344 100 0 = AssertionFailed.
Proof.
  apply (constructors_reject_nan 2143289344 100 1000 0).
  reflexivity.
Defined.


(** X7: on a valid configuration [clone] is idempotent and keeps the
    serialized form: the clone's bytes are the original's, and a clone of
    the clone is the clone again. *)
Theorem clone_idempotent (this : NMSRotatePlugin) :
  valid_configuration this ->
  exists c,
    clone this = Ok c /\ clone c = Ok c /\ serialize c = serialize this.
Proof.
  intros (Ht & Hd & Hc).
  exists (set_size this (-1)).
  unfold clone. cbn [set_size _nms_thresh _detections_per_im _count].
  assert (E : NMSRotatePlugin3 (_nms_thresh this) (_detections_per_im this)
                (_count this) = Ok (set_size this (-1)))
    by (apply NMSRotatePlugin3_accepts; auto).
  split; [exact E |]. split; [exact E |].
  rewrite !serialize_layout. reflexivity.
Qed.

Lemma clone_idempotent_witness :
  exists c,
    clone (set_size sample_plugin 8404) = Ok c /\
    clone c = Ok c /\
    serialize c = serialize (set_size sample_plugin 8404).
Proof.
  apply (clone_idempotent (set_size sample_plugin 8404)).
  exact sample_plugin_valid.
Defined.

(** ** Configuration in the life of a plugin *)

Lemma assert_Ok_inv (b : bool) (u : unit) : assert b = Ok u -> b = true.
Proof. destruct b; [reflexivity | discriminate]. Qed.

Lemma configurePlugin_Ok_inv
    (this configured : NMSRotatePlugin) (inputDims : list Dims) (nbInputs : Z)
    (inputTypes : list DataType) (floatFormat : PluginFormat) :
  configurePlugin this inputDims nbInputs inputTypes floatFormat = Ok configured ->
  exists scores boxes classes,
    nth_error inputTypes 0 = Some kFLOAT /\ floatFormat = kLINEAR /\
    nbInputs = 3 /\
    nth_error inputDims 0 = Some scores /\
    nth_error inputDims 1 = Some boxes /\
    nth_error inputDims 2 = Some classes /\
    d0 scores = d0 classes /\ d0 boxes = d0 classes * 6 /\
    configured = set_count this (to_size_t (d0 scores)).
Proof.
  unfold configurePlugin. intros H.
  apply bind_Ok_inv in H. destruct H as (t0 & Et & H).
  apply bind_Ok_inv in H. destruct H as (u1 & A1 & H).
  apply bind_Ok_inv in H. destruct H as (u2 & A2 & H).
  apply bind_Ok_inv in H. destruct H as (i0 & E0 & H).
  apply bind_Ok_inv in H. destruct H as (i2 & E2 & H).
  apply bind_Ok_inv in H. destruct H as (u3 & A3 & H).
  apply bind_Ok_inv in H. destruct H as (i1 & E1 & H).
  apply bind_Ok_inv in H. destruct H as (m & Em & H).
  apply bind_Ok_inv in H. destruct H as (u4 & A4 & H).
  injection H as <-.
  apply assert_Ok_inv in A1, A2, A3, A4.
  apply andb_true_iff in A1. destruct A1 as [Ety Efmt].
  apply DataType_eqb_eq in Ety. apply PluginFormat_eqb_eq in Efmt.
  apply Z.eqb_eq in A2, A3, A4.
  unfold int_mul in Em. destruct (in_intb (d0 i2 * 6)); [| discriminate Em].
  injection Em as <-.
  apply index_Ok in Et, E0, E1, E2. subst t0.
  exists i0, i1, i2. repeat split; assumption.
Qed.

Lemma configurePlugin_Ok_intro
    (this : NMSRotatePlugin) (scores boxes classes : Dims)
    (types : list DataType) :
  d0 scores = d0 classes -> d0 boxes = d0 classes * 6 ->
  in_int (d0 classes * 6) ->
  configurePlugin this [scores; boxes; classes] 3 (kFLOAT :: types) kLINEAR =
    Ok (set_count this (to_size_t (d0 scores))).
Proof.
  intros H02 H12 Hin. unfold configurePlugin.
  cbn [index nth_error bind DataType_eqb PluginFormat_eqb andb assert Z.eqb Pos.eqb].
  rewrite H02, Z.eqb_refl. cbn [assert bind].
  rewrite int_mul_in_range by exact Hin. cbn [bind].
  rewrite H12, Z.eqb_refl. reflexivity.
Qed.

(** X8: the count that [NMSRotatePlugin(float, int)] leaves uninitialised
    does not survive a successful [configurePlugin]: with a scores input of
    positive length the configured plugin is the one a direct construction
    with that count gives, whatever the member held before, and it can be
    cloned. *)
Theorem two_argument_constructor_then_configure
    (nms_thresh : float) (detections_per_im indeterminate : Z)
    (p configured : NMSRotatePlugin) (scores : Dims)
    (inputDims : list Dims) (nbInputs : Z)
    (inputTypes : list DataType) (floatFormat : PluginFormat) :
  NMSRotatePlugin2 nms_thresh detections_per_im indeterminate = Ok p ->
  configurePlugin p inputDims nbInputs inputTypes floatFormat = Ok configured ->
  nth_error inputDims 0 = Some scores ->
  0 < d0 scores <= INT_MAX ->
  NMSRotatePlugin3 nms_thresh detections_per_im (d0 scores) = Ok configured /\
  clone configured = Ok configured.
Proof.
  intros Hnew Hconf Hscores Hpos.
  unfold NMSRotatePlugin2 in Hnew.
  apply bind_Ok_inv in Hnew. destruct Hnew as (u1 & A1 & Hnew).
  apply bind_Ok_inv in Hnew. destruct Hnew as (u2 & A2 & Hnew).
  injection Hnew as <-.
  apply assert_Ok_inv in A1, A2. apply Z.gtb_lt in A2.
  apply configurePlugin_Ok_inv in Hconf.
  destruct Hconf as (s & b & c & _ & _ & _ & Hs & _ & _ & _ & _ & ->).
  rewrite Hscores in Hs. injection Hs as <-.
  rewrite to_size_t_id by (apply nonneg_int_in_size_t; lia).
  unfold clone, set_count. cbn [_nms_thresh _detections_per_im _count size].
  assert (E : NMSRotatePlugin3 nms_thresh detections_per_im (d0 scores) =
              Ok (mkNMSRotatePlugin nms_thresh detections_per_im (d0 scores) (-1)))
    by (apply NMSRotatePlugin3_accepts;
        split; [exact A1 | split; [lia | split; [lia | reflexivity]]]).
  split; exact E.
Qed.

Lemma two_argument_constructor_then_configure_witness :
  NMSRotatePlugin3 f_half 100 10 = Ok (mkNMSRotatePlugin f_half 100 10 (-1)) /\
  clone (mkNMSRotatePlugin f_half 100 10 (-1)) =
    Ok (mkNMSRotatePlugin f_half 100 10 (-1)).
Proof.
  apply (two_argument_constructor_then_configure f_half 100 0
           (mkNMSRotatePlugin f_half 100 0 (-1))
           (mkNMSRotatePlugin f_half 100 10 (-1))
           (Dims3 10 1 1) sample_dims 3 [kFLOAT; kFLOAT; kFLOAT] kLINEAR).
  - reflexivity.
  - reflexivity.
  - reflexivity.
  - vm_compute. split; [reflexivity | discriminate].
Defined.

(** X9: [configurePlugin] does not ask for a positive count. Inputs of
    length 0 pass every assertion and set the count to 0, and the plugin so
    configured cannot be cloned: the constructor behind [clone] asserts. *)
Theorem configurePlugin_accepts_empty_inputs
    (this : NMSRotatePlugin) (scores boxes classes : Dims)
    (types : list DataType) :
  d0 scores = 0 -> d0 boxes = 0 -> d0 classes = 0 ->
  configurePlugin this [scores; boxes; classes] 3 (kFLOAT :: types) kLINEAR =
    Ok (set_count this 0) /\
  clone (set_count this 0) = AssertionFailed.
Proof.
  intros Hs Hb Hc. split.
  - rewrite (configurePlugin_Ok_intro this scores boxes classes types).
    + rewrite Hs. reflexivity.
    + rewrite Hs, Hc. reflexivity.
    + rewrite Hb, Hc. reflexivity.
    + rewrite Hc. unfold in_int, INT_MIN, INT_MAX. simpl. lia.
  - unfold clone. apply NMSRotatePlugin3_rejects.
    right. right. simpl. lia.
Qed.

Lemma configurePlugin_accepts_empty_inputs_witness :
  configurePlugin sample_plugin [Dims3 0 1 1; Dims3 0 1 1; Dims3 0 1 1] 3
    [kFLOAT; kFLOAT; kFLOAT] kLINEAR = Ok (set_count sample_plugin 0) /\
  clone (set_count sample_plugin 0) = AssertionFailed.
Proof.
  apply (configurePlugin_accepts_empty_inputs sample_plugin
           (Dims3 0 1 1) (Dims3 0 1 1) (Dims3 0 1 1) [kFLOAT; kFLOAT]);
    reflexivity.
Defined.

Lemma configurePlugin_set_count
    (this : NMSRotatePlugin) (c : Z) (inputDims : list Dims) (nbInputs : Z)
    (inputTypes : list DataType) (floatFormat : PluginFormat) :
  configurePlugin (set_count this c) inputDims nbInputs inputTypes floatFormat =
  configurePlugin this inputDims nbInputs inputTypes floatFormat.
Proof.
  unfold configurePlugin.
  repeat match goal with
         | |- bind ?x _ = bind ?x _ =>
             destruct x; cbn [bind]; try reflexivity
         end.
Qed.

(** X10: configuring again forgets the earlier configuration: after a
    successful [configurePlugin], a second [configurePlugin] has the outcome
    it would have had on the plugin before the first. *)
Theorem configurePlugin_last_wins
    (this first : NMSRotatePlugin)
    (dimsA dimsB : list Dims) (nbA nbB : Z)
    (typesA typesB : list DataType) (formatA formatB : PluginFormat) :
  configurePlugin this dimsA nbA typesA formatA = Ok first ->
  configurePlugin first dimsB nbB typesB formatB =
  configurePlugin this dimsB nbB typesB formatB.
Proof.
  intros H. apply configurePlugin_Ok_inv in H.
  destruct H as (s & b & c & _ & _ & _ & _ & _ & _ & _ & _ & ->).
  apply configurePlugin_set_count.
Qed.

Lemma configurePlugin_last_wins_witness :
  configurePlugin (set_count sample_plugin 10)
    [Dims3 7 1 1; Dims3 42 1 1; Dims3 7 1 1] 3 [kFLOAT] kLINEAR =
  configurePlugin sample_plugin
    [Dims3 7 1 1; Dims3 42 1 1; Dims3 7 1 1] 3 [kFLOAT] kLINEAR.
Proof.
  apply (configurePlugin_last_wins sample_plugin (set_count sample_plugin 10)
           sample_dims [Dims3 7 1 1; Dims3 42 1 1; Dims3 7 1 1] 3 3
           [kFLOAT; kFLOAT; kFLOAT] [kFLOAT] kLINEAR kLINEAR).
  reflexivity.
Defined.



(** ** Output queries at the edges *)

Lemma getOutputDimensions_Ok_inv
    (this : NMSRotatePlugin) (index : Z) (inputs : list Dims) (nbInputDims : Z)
    (dims : Dims) :
  getOutputDimensions this index inputs nbInputDims = Ok dims ->
  nbInputDims = 3 /\ index < 3 /\
  in_int (_detections_per_im this * (if index =? 1 then 6 else 1)) /\
  dims = Dims3 (_detections_per_im this * (if index =? 1 then 6 else 1)) 1 1.
Proof.
  unfold getOutputDimensions, getNbOutputs. intros H.
  apply bind_Ok_inv in H. destruct H as (u1 & A1 & H).
  apply bind_Ok_inv in H. destruct H as (u2 & A2 & H).
  apply bind_Ok_inv in H. destruct H as (n & En & H).
  injection H as <-.
  apply assert_Ok_inv in A1, A2.
  apply Z.eqb_eq in A1. apply Z.ltb_lt in A2.
  unfold int_mul in En.
  destruct (in_intb (_detections_per_im this * (if index =? 1 then 6 else 1)))
    eqn:Hin; [| discriminate En].
  injection En as <-. apply in_intb_spec in Hin. auto.
Qed.

(** X12: the output queries test only the upper bound of the index. A
    negative index passes [assert(index < 3)] and is answered like the
    scores output: [detections_per_im] elements of type float. *)
Theorem output_queries_accept_negative_index
    (this : NMSRotatePlugin) (index : Z) (inputs : list Dims)
    (inputTypes : list DataType) (nbInputs : Z) :
  index < 0 ->
  in_int (_detections_per_im this) ->
  getOutputDimensions this index inputs 3 =
    Ok (Dims3 (_detections_per_im this) 1 1) /\
  getOutputDataType this index inputTypes nbInputs = Ok kFLOAT.
Proof.
  intros Hneg Hd.
  unfold getOutputDimensions, getOutputDataType, getNbOutputs, assert.
  destruct (Z.ltb_spec index 3) as [_ | Hge]; [| lia].
  destruct (Z.eqb_spec index 1) as [H1 | _]; [lia |].
  cbn [bind Z.eqb Pos.eqb].
  rewrite int_mul_in_range by (rewrite Z.mul_1_r; exact Hd).
  cbn [bind]. rewrite Z.mul_1_r. split; reflexivity.
Qed.

Lemma output_queries_accept_negative_index_witness :
  getOutputDimensions sample_plugin (-1) [] 3 = Ok (Dims3 100 1 1) /\
  getOutputDataType sample_plugin (-1) [] 0 = Ok kFLOAT.
Proof.
  apply (output_queries_accept_negative_index sample_plugin (-1) [] [] 0).
  - reflexivity.
  - vm_compute. split; discriminate.
Defined.

(** X13: the constructor puts no upper limit on [detections_per_im]. A
    plugin it accepts whose [detections_per_im * 6] exceeds INT_MAX has no
    defined boxes dimension: the product in [getOutputDimensions]
    overflows. *)
Theorem getOutputDimensions_boxes_overflow
    (nms_thresh : float) (detections_per_im count : Z) (p : NMSRotatePlugin)
    (inputs : list Dims) :
  NMSRotatePlugin3 nms_thresh detections_per_im count = Ok p ->
  INT_MAX < detections_per_im * 6 ->
  getOutputDimensions p 1 inputs 3 = Undefined.
Proof.
  intros Hnew Hbig.
  apply NMSRotatePlugin3_accepts in Hnew.
  destruct Hnew as (_ & _ & _ & ->).
  unfold getOutputDimensions, getNbOutputs, assert, int_mul.
  cbn [Z.eqb Z.ltb Z.compare Pos.compare Pos.compare_cont Pos.eqb bind
       _detections_per_im].
  destruct (in_intb (detections_per_im * 6)) eqn:Hin; [| reflexivity].
  apply in_intb_spec in Hin. unfold in_int in Hin. lia.
Qed.

Lemma getOutputDimensions_boxes_overflow_witness :
  getOutputDimensions (mkNMSRotatePlugin f_half 400000000 1000 (-1)) 1 [] 3 =
    Undefined.
Proof.
  apply (getOutputDimensions_boxes_overflow f_half 400000000 1000
           (mkNMSRotatePlugin f_half 400000000 1000 (-1)) []).
  - reflexivity.
  - reflexivity.
Defined.

(** X14: the output layout follows the convention the input check
    enforces (scores, boxes with 6 entries each, classes): whenever the
    three output dimensions are defined, [configurePlugin] accepts them as
    input dimensions and sets the count to [detections_per_im]. *)
Theorem output_dimensions_pass_input_check
    (this : NMSRotatePlugin) (inputs : list Dims) (o0 o1 o2 : Dims)
    (types : list DataType) :
  getOutputDimensions this 0 inputs 3 = Ok o0 ->
  getOutputDimensions this 1 inputs 3 = Ok o1 ->
  getOutputDimensions this 2 inputs 3 = Ok o2 ->
  configurePlugin this [o0; o1; o2] 3 (kFLOAT :: types) kLINEAR =
    Ok (set_count this (to_size_t (_detections_per_im this))).
Proof.
  intros H0 H1 H2.
  apply getOutputDimensions_Ok_inv in H0, H1, H2.
  destruct H0 as (_ & _ & _ & ->), H1 as (_ & _ & Hin & ->), H2 as (_ & _ & _ & ->).
  cbn [Z.eqb Pos.eqb] in *. rewrite Z.mul_1_r.
  rewrite (configurePlugin_Ok_intro this
             (Dims3 (_detections_per_im this) 1 1)
             (Dims3 (_detections_per_im this * 6) 1 1)
             (Dims3 (_detections_per_im this) 1 1) types);
    [reflexivity | reflexivity | reflexivity | exact Hin].
Qed.

Lemma output_dimensions_pass_input_check_witness :
  configurePlugin sample_plugin
    [Dims3 100 1 1; Dims3 600 1 1; Dims3 100 1 1] 3 [kFLOAT] kLINEAR =
    Ok (set_count sample_plugin 100).
Proof.
  apply (output_dimensions_pass_input_check sample_plugin []
           (Dims3 100 1 1) (Dims3 600 1 1) (Dims3 100 1 1) []);
    reflexivity.
Defined.

(** ** More on the workspace cache *)

Lemma to_size_t_negative (v : Z) :
  INT_MIN <= v < 0 -> to_size_t v = 2 ^ 64 + v.
Proof.
  unfold INT_MIN, to_size_t.
  change (2 ^ 31) with 2147483648; change (2 ^ 64) with 18446744073709551616.
  intros H. Z.div_mod_to_equations. lia.
Qed.

(** X15: a negative result of the sizing path is never cached. The query
    returns it converted to [size_t], that is [2^64] more, the cache stays
    unset, and the next query runs the sizing path again, for its own batch
    size. *)
Theorem getWorkspaceSize_negative_not_cached
    (nms_rotate_workspace : Z -> Z -> Z -> float -> Z)
    (this : NMSRotatePlugin) (b1 b2 : Z) :
  size this < 0 ->
  INT_MIN <= sizing nms_rotate_workspace this b1 < 0 ->
  fst (getWorkspaceSize nms_rotate_workspace this b1) =
    2 ^ 64 + sizing nms_rotate_workspace this b1 /\
  size (snd (getWorkspaceSize nms_rotate_workspace this b1)) < 0 /\
  fst (getWorkspaceSize nms_rotate_workspace
         (snd (getWorkspaceSize nms_rotate_workspace this b1)) b2) =
  fst (getWorkspaceSize nms_rotate_workspace this b2).
Proof.
  intros Hunset Hneg.
  assert (Hint : in_int (sizing nms_rotate_workspace this b1))
    by (unfold in_int, INT_MAX; lia).
  rewrite !(getWorkspaceSize_unset nms_rotate_workspace this) by exact Hunset.
  cbn [fst snd]. rewrite to_int_id by exact Hint.
  split; [apply to_size_t_negative; exact Hneg |].
  split; [cbn [set_size size]; lia |].
  rewrite getWorkspaceSize_unset by (cbn [set_size size]; lia).
  reflexivity.
Qed.

Lemma getWorkspaceSize_negative_not_cached_witness :
  fst (getWorkspaceSize (fun b _ _ _ => b - 3) sample_plugin 1) = 2 ^ 64 + (-2) /\
  size (snd (getWorkspaceSize (fun b _ _ _ => b - 3) sample_plugin 1)) < 0 /\
  fst (getWorkspaceSize (fun b _ _ _ => b - 3)
         (snd (getWorkspaceSize (fun b _ _ _ => b - 3) sample_plugin 1)) 8) =
  fst (getWorkspaceSize (fun b _ _ _ => b - 3) sample_plugin 8).
Proof.
  apply (getWorkspaceSize_negative_not_cached (fun b _ _ _ => b - 3)
           sample_plugin 1 8).
  - reflexivity.
  - vm_compute. split; [discriminate | reflexivity].
Defined.

(** X16: [enqueue] fills the cache. On a plugin whose cache is unset the
    first [enqueue], at batch size [b], stores the size computed for [b],
    and every later query, at any batch size, returns that size. *)
Theorem enqueue_caches_first_batch_size
    (overlap : RotatedBox -> RotatedBox -> float)
    (nms_rotate_workspace : Z -> Z -> Z -> float -> Z)
    (this : NMSRotatePlugin) (b b2 : Z) (inputs : list (list Candidate)) :
  size this < 0 ->
  0 <= sizing nms_rotate_workspace this b <= INT_MAX ->
  snd (enqueue overlap nms_rotate_workspace this b inputs) =
    set_size this (sizing nms_rotate_workspace this b) /\
  getWorkspaceSize nms_rotate_workspace
    (snd (enqueue overlap nms_rotate_workspace this b inputs)) b2 =
    (sizing nms_rotate_workspace this b,
     set_size this (sizing nms_rotate_workspace this b)).
Proof.
  intros Hunset Hs. unfold enqueue. cbn [snd].
  rewrite getWorkspaceSize_unset by exact Hunset. cbn [snd].
  rewrite to_int_id by (apply nonneg_int_in_int; exact Hs).
  split; [reflexivity |].
  rewrite getWorkspaceSize_set by (cbn [set_size size]; lia).
  cbn [set_size size].
  rewrite to_size_t_id by (apply nonneg_int_in_size_t; exact Hs).
  reflexivity.
Qed.

Lemma enqueue_caches_first_batch_size_witness :
  snd (enqueue coincide required_workspace sample_plugin 1 [sample_image]) =
    set_size sample_plugin 8404 /\
  getWorkspaceSize required_workspace
    (snd (enqueue coincide required_workspace sample_plugin 1 [sample_image])) 4 =
    (8404, set_size sample_plugin 8404).
Proof.
  apply (enqueue_caches_first_batch_size coincide required_workspace
           sample_plugin 1 4 [sample_image]).
  - reflexivity.
  - vm_compute. split; discriminate.
Defined.

(** X17: the cached workspace size is not part of the serialized form. A
    plugin that has a size cached and is serialized and deserialized comes
    back with the same configuration and an unset cache, so its first query
    runs the sizing path. *)
Theorem deserialized_plugin_recomputes_workspace
    (nms_rotate_workspace : Z -> Z -> Z -> float -> Z)
    (p : NMSRotatePlugin) (len batch : Z) :
  well_formed p ->
  deserializePlugin (serialize p) len = Ok (set_size p (-1)) /\
  getWorkspaceSize nms_rotate_workspace (set_size p (-1)) batch =
    (to_size_t (to_int (sizing nms_rotate_workspace p batch)),
     set_size p (to_int (sizing nms_rotate_workspace p batch))).
Proof.
  intros Hwf. split.
  - unfold deserializePlugin, NMSRotatePlugin_data.
    rewrite <- (app_nil_r (serialize p)).
    rewrite deserialize_serialize by exact Hwf. reflexivity.
  - rewrite getWorkspaceSize_unset by (cbn [set_size size]; lia).
    reflexivity.
Qed.

Lemma deserialized_plugin_recomputes_workspace_witness :
  deserializePlugin (serialize (set_size sample_plugin 8404)) 16 =
    Ok sample_plugin /\
  getWorkspaceSize required_workspace sample_plugin 2 =
    (16808, set_size sample_plugin 16808).
Proof.
  apply (deserialized_plugin_recomputes_workspace required_workspace
           (set_size sample_plugin 8404) 16 2).
  unfold well_formed, representable, in_int, in_size_t, INT_MIN, INT_MAX,
    SIZE_MAX, sample_plugin, f_half; simpl. lia.
Defined.
